(** * Explore pane state: reducer, URL diff and the two orchestrating thunks

    A shallow embedding of the state module of one Explore pane: the
    pane reducer [paneReducer], the comparator [urlDiff] and the thunks
    [initializeExplore] and [refreshExplore].

    Conventions.
    - A TypeScript [number] that is only stored and copied (widths, panel
      ids, organisation ids, timestamps) is a [Z].
    - An optional or nullable field is an [option].  [s?.f] on an
      optional state [s] is [f <$> s]: [None] is the [undefined] of an
      absent state, [Some None] the [null] of a present one.
    - [_.isEqual] on strings, plain objects and arrays of them is
      structural equality, here [bool_decide] of Leibniz equality.
    - Functions imported from modules that are not part of this file
      (app/core/utils/explore, ./query, ./datasource, ./time, ./history,
      ./utils, ./main, ./selectors, the profile selectors and the rich
      history store) are fields of the interfaces [CoreUtils],
      [SubReducers] and [Services]; every definition below is parametric
      in them. *)

From Stdlib Require Import ZArith List Bool String.
From stdpp Require Import base numbers option list strings pretty.

Import ListNotations.
Local Open Scope Z_scope.
Local Open Scope string_scope.

(** ** Data model *)

Module ExploreId.
Inductive t : Type := left | right.
End ExploreId.

#[global] Instance ExploreId_eq_dec : EqDecision ExploreId.t.
Proof. solve_decision. Defined.

(** [DateTime | string]: one end of a raw time range. *)
Inductive TimeValue : Type :=
| TimeString (s : string)
| TimeMoment (ms : Z).

#[global] Instance TimeValue_eq_dec : EqDecision TimeValue.
Proof. solve_decision. Defined.

Module RawTimeRange.
Record t : Type := mk { from : TimeValue; to : TimeValue }.
End RawTimeRange.

#[global] Instance RawTimeRange_eq_dec : EqDecision RawTimeRange.t.
Proof. solve_decision. Defined.

(** [TimeRange]: the absolute ends (as epoch milliseconds) and the raw
    range they were resolved from. *)
Module TimeRange.
Record t : Type := mk { from : Z; to : Z; raw : RawTimeRange.t }.
End TimeRange.

(** [DataQuery]: the reference id and the key may be missing; [expr]
    stands for the data source specific content of the query. *)
Record DataQuery : Type := mkDataQuery {
  refId : option string;
  key : option string;
  expr : string
}.

#[global] Instance DataQuery_eq_dec : EqDecision DataQuery.
Proof. solve_decision. Defined.

Record DataSourceApi : Type := mkDataSourceApi {
  name : string;
  uid : Z
}.

Record HistoryItem : Type := mkHistoryItem {
  ts : Z;
  query : DataQuery
}.

(** An entry of the rich history (the saved queries). *)
Record RichHistoryQuery : Type := mkRichHistoryQuery {
  rich_ts : Z;
  datasourceName : string;
  starred : bool;
  rich_queries : list string
}.

(** Opaque handle of the pane's event channel.  The [null] that an
    uninitialised pane holds under this type is whatever value
    [makeExplorePaneState] puts there. *)
Inductive EventBusExtended : Type := EventBus (handle : nat).

Module LogsDedupStrategy.
Inductive t : Type := none | exact | numbers | signature.
End LogsDedupStrategy.

Module LogLevel.
Inductive t : Type :=
| emerg | fatal | alert | crit | critical | warn | warning | err | eror
| error | info | information | notice | dbug | debug | trace | unknown.
End LogLevel.

Module LoadingState.
Inductive t : Type := NotStarted | Loading | Streaming | Done | Error.
End LoadingState.

Record PanelData : Type := mkPanelData {
  state : LoadingState.t;
  series : list string
}.

(** [ExploreUrlState]: what the URL says about one pane. *)
Module ExploreUrlState.
Record t : Type := mk {
  datasource : option string;
  queries : list DataQuery;
  range : option RawTimeRange.t;
  originPanelId : option Z
}.
End ExploreUrlState.

(** [ExploreItemState]: the fields of a pane this file reads or writes.
    The pane of the application has more fields; every branch of the
    reducer carries them along with [...state], as it does the fields
    below that it does not set.  What is stated of a pane after an
    action is therefore stated field by field, or as the equality of two
    results of the same spread. *)
Record ExploreItemState : Type := mkExploreItemState {
  containerWidth : Z;
  eventBridge : EventBusExtended;
  queries : list DataQuery;
  queryKeys : list string;
  range : TimeRange.t;
  initialized : bool;
  datasourceInstance : option DataSourceApi;
  datasourceMissing : bool;
  history : list HistoryItem;
  dedupStrategy : LogsDedupStrategy.t;
  hiddenLogLevels : list LogLevel.t;
  logsHighlighterExpressions : option (list string);
  queryResponse : PanelData;
  originPanelId : option Z
}.

(** ** Functions of app/core/utils/explore used here *)

Class CoreUtils : Type := {
  DEFAULT_RANGE : RawTimeRange.t;
  getQueryKeys : list DataQuery -> option DataSourceApi -> list string;
  parseUrlState : string -> ExploreUrlState.t;
  generateNewKeyAndAddRefIdIfMissing :
    DataQuery -> list DataQuery -> nat -> DataQuery;
  ensureQueries : list DataQuery -> list DataQuery;
  getTimeRangeFromUrl : option RawTimeRange.t -> string -> TimeRange.t
}.

(** ** urlDiff *)

Module UrlDiff.
Record t : Type := mk { datasource : bool; queries : bool; range : bool }.
End UrlDiff.

Definition isEqual {A : Type} `{EqDecision A} (x y : A) : bool :=
  bool_decide (x = y).

(** Truthiness of an optional object: an object is truthy, [undefined]
    and [null] are not. *)
Definition truthy {A : Type} (x : option A) : bool :=
  match x with
  | Some _ => true
  | None => false
  end.

(** [x || d] for an [x] that is an object when present: an object is
    truthy, so the default is taken exactly when [x] is absent. *)
Definition orDefault {A : Type} (x : option A) (d : A) : A :=
  match x with
  | Some v => v
  | None => d
  end.

Section Comparator.
Context `{CoreUtils}.

Definition urlDiff (oldUrlState currentUrlState : option ExploreUrlState.t)
  : UrlDiff.t :=
  let datasource :=
    negb (isEqual (ExploreUrlState.datasource <$> currentUrlState)
                  (ExploreUrlState.datasource <$> oldUrlState)) in
  let queries :=
    negb (isEqual (ExploreUrlState.queries <$> currentUrlState)
                  (ExploreUrlState.queries <$> oldUrlState)) in
  let range :=
    negb (isEqual
            (orDefault (currentUrlState ≫= ExploreUrlState.range) DEFAULT_RANGE)
            (orDefault (oldUrlState ≫= ExploreUrlState.range) DEFAULT_RANGE)) in
  UrlDiff.mk datasource queries range.

(** The range a view state stands for: its own, or the default one when
    the state or its range is absent. *)
Definition resolvedRange (s : option ExploreUrlState.t) : RawTimeRange.t :=
  match s with
  | Some u =>
      match ExploreUrlState.range u with
      | Some r => r
      | None => DEFAULT_RANGE
      end
  | None => DEFAULT_RANGE
  end.

Definition allFalse : UrlDiff.t := UrlDiff.mk false false false.

End Comparator.

(** ** Actions and payloads *)

Module ChangeSizePayload.
Record t : Type := mk { exploreId : ExploreId.t; width : Z; height : Z }.
End ChangeSizePayload.

Module ChangeDedupStrategyPayload.
Record t : Type := mk {
  exploreId : ExploreId.t;
  dedupStrategy : LogsDedupStrategy.t
}.
End ChangeDedupStrategyPayload.

Module HighlightLogsExpressionPayload.
Record t : Type := mk { exploreId : ExploreId.t; expressions : list string }.
End HighlightLogsExpressionPayload.

Module InitializeExplorePayload.
Record t : Type := mk {
  exploreId : ExploreId.t;
  containerWidth : Z;
  eventBridge : EventBusExtended;
  queries : list DataQuery;
  range : TimeRange.t;
  history : list HistoryItem;
  datasourceInstance : option DataSourceApi;
  originPanelId : option Z
}.
End InitializeExplorePayload.

Module ToggleLogLevelPayload.
Record t : Type := mk {
  exploreId : ExploreId.t;
  hiddenLogLevels : list LogLevel.t
}.
End ToggleLogLevelPayload.

Module SetUrlReplacedPayload.
Record t : Type := mk { exploreId : ExploreId.t }.
End SetUrlReplacedPayload.

(** Payload of [setQueriesAction], declared in ./query. *)
Module SetQueriesPayload.
Record t : Type := mk { exploreId : ExploreId.t; queries : list DataQuery }.
End SetQueriesPayload.

(** [AnyAction]: the six action creators of this file, the two creators
    of ./query and ./main that the thunks dispatch, and any other action,
    of which only the type tag and the pane it names (if any) are kept. *)
Inductive Action : Type :=
| changeSizeAction (payload : ChangeSizePayload.t)
| changeDedupStrategyAction (payload : ChangeDedupStrategyPayload.t)
| highlightLogsExpressionAction (payload : HighlightLogsExpressionPayload.t)
| initializeExploreAction (payload : InitializeExplorePayload.t)
| toggleLogLevelAction (payload : ToggleLogLevelPayload.t)
| setUrlReplacedAction (payload : SetUrlReplacedPayload.t)
| setQueriesAction (payload : SetQueriesPayload.t)
| richHistoryUpdatedAction (richHistory : list RichHistoryQuery)
| otherAction (type : string) (exploreId : option ExploreId.t).

Definition changeSize (exploreId : ExploreId.t) (height width : Z) : Action :=
  changeSizeAction (ChangeSizePayload.mk exploreId width height).

Definition changeDedupStrategy (exploreId : ExploreId.t)
    (dedupStrategy : LogsDedupStrategy.t) : Action :=
  changeDedupStrategyAction
    (ChangeDedupStrategyPayload.mk exploreId dedupStrategy).

(** ** The pane reducer *)

(** The four reducers of ./query, ./datasource, ./time and ./history and
    the two constructors of ./utils. *)
Class SubReducers : Type := {
  queryReducer : ExploreItemState -> Action -> ExploreItemState;
  datasourceReducer : ExploreItemState -> Action -> ExploreItemState;
  timeReducer : ExploreItemState -> Action -> ExploreItemState;
  historyReducer : ExploreItemState -> Action -> ExploreItemState;
  makeExplorePaneState : ExploreItemState;
  createEmptyQueryResponse : PanelData
}.

Section Reducer.
Context `{CoreUtils} `{SubReducers}.

(** The first four assignments of [paneReducer]. *)
Definition subReducers (state : ExploreItemState) (action : Action)
  : ExploreItemState :=
  let state := queryReducer state action in
  let state := datasourceReducer state action in
  let state := timeReducer state action in
  let state := historyReducer state action in
  state.

Definition paneReducer (state : ExploreItemState) (action : Action)
  : ExploreItemState :=
  let state := subReducers state action in
  match action with
  | changeSizeAction payload =>
      let containerWidth := ChangeSizePayload.width payload in
      {| containerWidth := containerWidth;
         eventBridge := eventBridge state;
         queries := queries state;
         queryKeys := queryKeys state;
         range := range state;
         initialized := initialized state;
         datasourceInstance := datasourceInstance state;
         datasourceMissing := datasourceMissing state;
         history := history state;
         dedupStrategy := dedupStrategy state;
         hiddenLogLevels := hiddenLogLevels state;
         logsHighlighterExpressions := logsHighlighterExpressions state;
         queryResponse := queryResponse state;
         originPanelId := originPanelId state |}
  | highlightLogsExpressionAction payload =>
      let expressions := HighlightLogsExpressionPayload.expressions payload in
      {| containerWidth := containerWidth state;
         eventBridge := eventBridge state;
         queries := queries state;
         queryKeys := queryKeys state;
         range := range state;
         initialized := initialized state;
         datasourceInstance := datasourceInstance state;
         datasourceMissing := datasourceMissing state;
         history := history state;
         dedupStrategy := dedupStrategy state;
         hiddenLogLevels := hiddenLogLevels state;
         logsHighlighterExpressions := Some expressions;
         queryResponse := queryResponse state;
         originPanelId := originPanelId state |}
  | changeDedupStrategyAction payload =>
      let dedupStrategy' := ChangeDedupStrategyPayload.dedupStrategy payload in
      {| containerWidth := containerWidth state;
         eventBridge := eventBridge state;
         queries := queries state;
         queryKeys := queryKeys state;
         range := range state;
         initialized := initialized state;
         datasourceInstance := datasourceInstance state;
         datasourceMissing := datasourceMissing state;
         history := history state;
         dedupStrategy := dedupStrategy';
         hiddenLogLevels := hiddenLogLevels state;
         logsHighlighterExpressions := logsHighlighterExpressions state;
         queryResponse := queryResponse state;
         originPanelId := originPanelId state |}
  | initializeExploreAction payload =>
      let containerWidth := InitializeExplorePayload.containerWidth payload in
      let eventBridge := InitializeExplorePayload.eventBridge payload in
      let queries := InitializeExplorePayload.queries payload in
      let range := InitializeExplorePayload.range payload in
      let originPanelId := InitializeExplorePayload.originPanelId payload in
      let datasourceInstance' :=
        InitializeExplorePayload.datasourceInstance payload in
      let history := InitializeExplorePayload.history payload in
      {| containerWidth := containerWidth;
         eventBridge := eventBridge;
         range := range;
         queries := queries;
         initialized := true;
         queryKeys := getQueryKeys queries (datasourceInstance state);
         originPanelId := originPanelId;
         datasourceInstance := datasourceInstance';
         history := history;
         datasourceMissing := negb (truthy datasourceInstance');
         queryResponse := createEmptyQueryResponse;
         logsHighlighterExpressions := None;
         dedupStrategy := dedupStrategy state;
         hiddenLogLevels := hiddenLogLevels state |}
  | toggleLogLevelAction payload =>
      let hiddenLogLevels := ToggleLogLevelPayload.hiddenLogLevels payload in
      {| containerWidth := containerWidth state;
         eventBridge := eventBridge state;
         queries := queries state;
         queryKeys := queryKeys state;
         range := range state;
         initialized := initialized state;
         datasourceInstance := datasourceInstance state;
         datasourceMissing := datasourceMissing state;
         history := history state;
         dedupStrategy := dedupStrategy state;
         hiddenLogLevels := hiddenLogLevels;
         logsHighlighterExpressions := logsHighlighterExpressions state;
         queryResponse := queryResponse state;
         originPanelId := originPanelId state |}
  | _ => state
  end.

(** [paneReducer] called with an undefined state starts from
    [makeExplorePaneState ()]. *)
Definition paneReducerDefault (state : option ExploreItemState)
    (action : Action) : ExploreItemState :=
  paneReducer (default makeExplorePaneState state) action.


End Reducer.

(** ** The store *)

Module ExploreState.
Record t : Type := mk {
  split : bool;
  left : ExploreItemState;
  right : ExploreItemState;
  richHistory : list RichHistoryQuery
}.
End ExploreState.

Record UserState : Type := mkUserState {
  orgId : Z;
  timeZone : string
}.

Record StoreState : Type := mkStoreState {
  explore : ExploreState.t;
  user : UserState
}.

(** [state.explore[exploreId]]. *)
Definition pane (exploreId : ExploreId.t) (s : ExploreState.t)
  : ExploreItemState :=
  match exploreId with
  | ExploreId.left => ExploreState.left s
  | ExploreId.right => ExploreState.right s
  end.

(** [{ ...state, [exploreId]: p }]. *)
Definition setPane (exploreId : ExploreId.t) (p : ExploreItemState)
    (s : ExploreState.t) : ExploreState.t :=
  match exploreId with
  | ExploreId.left =>
      ExploreState.mk (ExploreState.split s) p (ExploreState.right s)
        (ExploreState.richHistory s)
  | ExploreId.right =>
      ExploreState.mk (ExploreState.split s) (ExploreState.left s) p
        (ExploreState.richHistory s)
  end.

(** ** Thunks *)

(** What [loadAndInitDatasource] resolves to. *)
Record LoadResult : Type := mkLoadResult {
  instance : option DataSourceApi;
  loaded_history : list HistoryItem
}.

(** What a thunk hands to [dispatch]: a plain action, one of the thunks
    [updateTime] and [runQueries] of ./time and ./query, or
    [initializeExplore] itself, each with its arguments. *)
Inductive Dispatchable : Type :=
| plain (action : Action)
| updateTime (exploreId : ExploreId.t) (rawRange : option RawTimeRange.t)
| runQueries (exploreId : ExploreId.t)
| initializeExploreThunk
    (exploreId : ExploreId.t)
    (datasourceName : option string)
    (queries : list DataQuery)
    (range : TimeRange.t)
    (containerWidth : Z)
    (eventBridge : EventBusExtended)
    (originPanelId : option Z).

(** The body of a thunk: it reads the store with [getState], hands
    values to [dispatch] and awaits [loadAndInitDatasource]. *)
Inductive Thunk (A : Type) : Type :=
| Return (a : A)
| GetState (k : StoreState -> Thunk A)
| Dispatch (d : Dispatchable) (k : Thunk A)
| AwaitLoad (orgId : Z) (datasourceName : option string)
    (k : LoadResult -> Thunk A).

Arguments Return {A} a.
Arguments GetState {A} k.
Arguments Dispatch {A} d k.
Arguments AwaitLoad {A} orgId datasourceName k.

Fixpoint bind {A B : Type} (t : Thunk A) (f : A -> Thunk B) : Thunk B :=
  match t with
  | Return a => f a
  | GetState k => GetState (fun s => bind (k s) f)
  | Dispatch d k => Dispatch d (bind k f)
  | AwaitLoad o n k => AwaitLoad o n (fun r => bind (k r) f)
  end.

Definition getState : Thunk StoreState := GetState Return.
Definition dispatch (d : Dispatchable) : Thunk unit := Dispatch d (Return tt).
Definition await_loadAndInitDatasource (orgId : Z)
    (datasourceName : option string) : Thunk LoadResult :=
  AwaitLoad orgId datasourceName Return.

(** [if (c) { t }] as a statement. *)
Definition when (c : bool) (t : Thunk unit) : Thunk unit :=
  if c then t else Return tt.

#[global] Instance Thunk_ret : MRet Thunk := @Return.
#[global] Instance Thunk_bind : MBind Thunk := fun A B f t => bind t f.

(** The collaborators of the thunks: the selectors, the data source
    loader (a rejected promise is [None]), the rich history store, the
    projection of a pane to URL state, and what dispatching the thunks
    [updateTime] and [runQueries] does to the store. *)
Class Services : Type := {
  getExploreDatasources : list string;
  loadAndInitDatasource : Z -> option string -> option LoadResult;
  getRichHistory : list RichHistoryQuery;
  getTimeZone : UserState -> string;
  getUrlStateFromPaneState : ExploreItemState -> ExploreUrlState.t;
  updateTimeEffect :
    ExploreId.t -> option RawTimeRange.t -> StoreState -> StoreState;
  runQueriesEffect : ExploreId.t -> StoreState -> StoreState
}.

Section Orchestrator.
Context `{CoreUtils} `{SubReducers} `{Services}.

(** Modelled from the spec: the reducer of the explore slice
    ([exploreReducer] of ./main) is not part of this file.  An action
    carries the identity of its target pane and affects only that pane's
    state, through [paneReducer]; the rich-history snapshot replaces the
    saved-query list; any other action leaves the slice as it is. *)
Definition exploreReducer (s : ExploreState.t) (action : Action)
  : ExploreState.t :=
  let toPane exploreId :=
    setPane exploreId (paneReducer (pane exploreId s) action) s in
  match action with
  | richHistoryUpdatedAction richHistory =>
      ExploreState.mk (ExploreState.split s) (ExploreState.left s)
        (ExploreState.right s) richHistory
  | changeSizeAction p => toPane (ChangeSizePayload.exploreId p)
  | changeDedupStrategyAction p =>
      toPane (ChangeDedupStrategyPayload.exploreId p)
  | highlightLogsExpressionAction p =>
      toPane (HighlightLogsExpressionPayload.exploreId p)
  | initializeExploreAction p => toPane (InitializeExplorePayload.exploreId p)
  | toggleLogLevelAction p => toPane (ToggleLogLevelPayload.exploreId p)
  | setUrlReplacedAction p => toPane (SetUrlReplacedPayload.exploreId p)
  | setQueriesAction p => toPane (SetQueriesPayload.exploreId p)
  | otherAction _ (Some exploreId) => toPane exploreId
  | otherAction _ None => s
  end.

Definition reduce (action : Action) (s : StoreState) : StoreState :=
  {| explore := exploreReducer (explore s) action; user := user s |}.

(** *** initializeExplore *)

Definition initializeExplore
    (exploreId : ExploreId.t)
    (datasourceName : option string)
    (queries : list DataQuery)
    (range : TimeRange.t)
    (containerWidth : Z)
    (eventBridge : EventBusExtended)
    (originPanelId : option Z) : Thunk unit :=
  let exploreDatasources := getExploreDatasources in
  loaded ←
    (if (1 <=? length exploreDatasources)%nat then
       st ← getState;
       let orgId := orgId (user st) in
       loadResult ← await_loadAndInitDatasource orgId datasourceName;
       mret (instance loadResult, loaded_history loadResult)
     else mret (None, []));
  let instance := fst loaded in
  let history := snd loaded in
  dispatch
    (plain
       (initializeExploreAction
          (InitializeExplorePayload.mk exploreId containerWidth eventBridge
             queries range history instance originPanelId)));;
  dispatch (updateTime exploreId None);;
  when (truthy instance) (dispatch (runQueries exploreId));;
  let richHistory := getRichHistory in
  dispatch (plain (richHistoryUpdatedAction richHistory)).

(** *** refreshExplore *)

(** The loop that fills [refreshQueries]: the query at position [index]
    is pushed after [generateNewKeyAndAddRefIdIfMissing] has seen the
    queries pushed before it. *)
Fixpoint refreshLoop (queries : list DataQuery) (index : nat)
    (refreshQueries : list DataQuery) : list DataQuery :=
  match queries with
  | [] => refreshQueries
  | query :: rest =>
      refreshLoop rest (S index)
        (refreshQueries
           ++ [generateNewKeyAndAddRefIdIfMissing query refreshQueries index])
  end.

Definition refreshExplore (exploreId : ExploreId.t) (urlQuery : string)
  : Thunk unit :=
  st ← getState;
  let itemState := pane exploreId (explore st) in
  if negb (initialized itemState) then mret tt
  else
    let urlState := parseUrlState urlQuery in
    let update :=
      urlDiff (Some urlState) (Some (getUrlStateFromPaneState itemState)) in
    let containerWidth := containerWidth itemState in
    let eventBridge := eventBridge itemState in
    let datasource := ExploreUrlState.datasource urlState in
    let queries := ExploreUrlState.queries urlState in
    let urlRange := ExploreUrlState.range urlState in
    let originPanelId := ExploreUrlState.originPanelId urlState in
    let refreshQueries := refreshLoop queries 0 [] in
    st' ← getState;
    let timeZone := getTimeZone (user st') in
    let range := getTimeRangeFromUrl urlRange timeZone in
    if UrlDiff.datasource update then
      let initialQueries := ensureQueries queries in
      dispatch
        (initializeExploreThunk exploreId datasource initialQueries range
           containerWidth eventBridge originPanelId)
    else
      when (UrlDiff.range update)
        (dispatch (updateTime exploreId (Some (TimeRange.raw range))));;
      when (UrlDiff.queries update)
        (dispatch
           (plain
              (setQueriesAction
                 (SetQueriesPayload.mk exploreId refreshQueries))));;
      when (UrlDiff.queries update || UrlDiff.range update)
        (dispatch (runQueries exploreId)).

(** The values [refreshExplore] names [update] and [range], as functions
    of its arguments and of the store it reads. *)
Definition refreshUpdate (exploreId : ExploreId.t) (urlQuery : string)
    (s : StoreState) : UrlDiff.t :=
  urlDiff (Some (parseUrlState urlQuery))
    (Some (getUrlStateFromPaneState (pane exploreId (explore s)))).

Definition refreshRange (urlQuery : string) (s : StoreState) : TimeRange.t :=
  getTimeRangeFromUrl (ExploreUrlState.range (parseUrlState urlQuery))
    (getTimeZone (user s)).

(** *** Running a thunk *)

Inductive Outcome : Type := Fulfilled | Rejected.

(** What one call of a thunk did: how it ended, the store it left, what
    it handed to [dispatch], in order, and the data sources it asked
    [loadAndInitDatasource] for itself (not those a thunk it dispatched
    asked for). *)
Record Run : Type := mkRun {
  outcome : Outcome;
  store : StoreState;
  dispatched : list Dispatchable;
  loads : list (Z * option string)
}.

(** [handle d s] is the store after [dispatch(d)].  The store is only
    touched by dispatches: nothing else runs while a thunk awaits. *)
Fixpoint runWith (handle : Dispatchable -> StoreState -> StoreState)
    (t : Thunk unit) (s : StoreState) : Run :=
  match t with
  | Return _ => mkRun Fulfilled s [] []
  | GetState k => runWith handle (k s) s
  | Dispatch d k =>
      let r := runWith handle k (handle d s) in
      mkRun (outcome r) (store r) (d :: dispatched r) (loads r)
  | AwaitLoad o n k =>
      match loadAndInitDatasource o n with
      | Some loadResult =>
          let r := runWith handle (k loadResult) s in
          mkRun (outcome r) (store r) (dispatched r) ((o, n) :: loads r)
      | None => mkRun Rejected s [] [(o, n)]
      end
  end.

(** Dispatching a plain action reduces it; [updateTime] and [runQueries]
    act on the store as their modules say. *)
Definition handleBase (d : Dispatchable) (s : StoreState) : StoreState :=
  match d with
  | plain action => reduce action s
  | updateTime exploreId rawRange => updateTimeEffect exploreId rawRange s
  | runQueries exploreId => runQueriesEffect exploreId s
  | initializeExploreThunk _ _ _ _ _ _ _ => s
  end.

(** One call of [initializeExplore], which dispatches no thunk of its
    own kind. *)
Definition runInitializeExplore
    (exploreId : ExploreId.t)
    (datasourceName : option string)
    (queries : list DataQuery)
    (range : TimeRange.t)
    (containerWidth : Z)
    (eventBridge : EventBusExtended)
    (originPanelId : option Z) (s : StoreState) : Run :=
  runWith handleBase
    (initializeExplore exploreId datasourceName queries range containerWidth
       eventBridge originPanelId) s.

(** How far a thunk gets inside the call that starts it.  It runs up to
    its first [await]: there it has called the loader, with the
    arguments in [pendingLoad], and is suspended on the promise; what
    follows the [await] runs after the caller has gone on.  A thunk that
    awaits nothing runs to its end and has no pending load. *)
Record Started : Type := mkStarted {
  storeAtReturn : StoreState;
  dispatchedAtReturn : list Dispatchable;
  pendingLoad : option (Z * option string)
}.

Fixpoint startWith (handle : Dispatchable -> StoreState -> StoreState)
    (t : Thunk unit) (s : StoreState) : Started :=
  match t with
  | Return _ => mkStarted s [] None
  | GetState k => startWith handle (k s) s
  | Dispatch d k =>
      let r := startWith handle k (handle d s) in
      mkStarted (storeAtReturn r) (d :: dispatchedAtReturn r) (pendingLoad r)
  | AwaitLoad o n k => mkStarted s [] (Some (o, n))
  end.

Definition startInitializeExplore
    (exploreId : ExploreId.t)
    (datasourceName : option string)
    (queries : list DataQuery)
    (range : TimeRange.t)
    (containerWidth : Z)
    (eventBridge : EventBusExtended)
    (originPanelId : option Z) (s : StoreState) : Started :=
  startWith handleBase
    (initializeExplore exploreId datasourceName queries range containerWidth
       eventBridge originPanelId) s.

(** [dispatch(initializeExplore(...))] is not awaited by its caller: the
    store when [dispatch] returns is the one the dispatched thunk has
    reached at its first [await]. *)
Definition handleThunk (d : Dispatchable) (s : StoreState) : StoreState :=
  match d with
  | initializeExploreThunk exploreId datasourceName queries range
      containerWidth eventBridge originPanelId =>
      storeAtReturn
        (startInitializeExplore exploreId datasourceName queries range
           containerWidth eventBridge originPanelId s)
  | _ => handleBase d s
  end.

Definition runRefreshExplore (exploreId : ExploreId.t) (urlQuery : string)
    (s : StoreState) : Run :=
  runWith handleThunk (refreshExplore exploreId urlQuery) s.

(** The instance [initializeExplore] ends up with: none when no data
    source is configured or the loader rejects, else the loader's. *)
Definition resolvedInstance (datasourceName : option string) (s : StoreState)
  : option DataSourceApi :=
  match getExploreDatasources with
  | [] => None
  | _ :: _ =>
      match loadAndInitDatasource (orgId (user s)) datasourceName with
      | Some loadResult => instance loadResult
      | None => None
      end
  end.

Definition isRunQueries (d : Dispatchable) : bool :=
  match d with
  | runQueries _ => true
  | _ => false
  end.


Definition isSetQueries (d : Dispatchable) : bool :=
  match d with
  | plain (setQueriesAction _) => true
  | _ => false
  end.

(** How many of the dispatched values satisfy [p]. *)
Definition countDispatched (p : Dispatchable -> bool)
    (l : list Dispatchable) : nat :=
  length (filter (fun d => p d = true) l).

End Orchestrator.

(** ** A sample environment

    Concrete collaborators on which the thunks and the reducer can be
    run: they fix one behaviour of the imported functions, close to
    their names, and are used to evaluate the definitions above on
    explicit inputs. *)

Module Sample.

Definition hourAgo : RawTimeRange.t :=
  RawTimeRange.mk (TimeString "now-1h") (TimeString "now").

Definition sixHoursAgo : RawTimeRange.t :=
  RawTimeRange.mk (TimeString "now-6h") (TimeString "now").

(** Modelled from the spec: [getQueryKeys] of app/core/utils/explore is
    not part of this file.  The keys are derived cache keys, one per
    query, that depend on the bound data source identity: the key of the
    query at position [index] is the name of the data source (the
    query's own key when none is bound), a dash and [index]. *)
Fixpoint queryKeysFrom (index : nat) (queries : list DataQuery)
    (datasourceInstance : option DataSourceApi) : list string :=
  match queries with
  | [] => []
  | q :: rest =>
      let primaryKey :=
        match datasourceInstance with
        | Some ds => name ds
        | None => default "undefined" (key q)
        end in
      (primaryKey ++ "-" ++ pretty index)
        :: queryKeysFrom (S index) rest datasourceInstance
  end.

Definition getQueryKeys : list DataQuery -> option DataSourceApi -> list string :=
  queryKeysFrom 0.

Definition refIdChars : list string := ["A"; "B"; "C"; "D"; "E"; "F"].

(** The first letter that no query of the list carries as reference id. *)
Definition getNextRefIdChar (queries : list DataQuery) : option string :=
  head
    (filter (fun c => Forall (fun q => refId q <> Some c) queries) refIdChars).

Definition generateNewKeyAndAddRefIdIfMissing (target : DataQuery)
    (queries : list DataQuery) (index : nat) : DataQuery :=
  let key := "Q-" ++ pretty index in
  let refId :=
    match refId target with
    | Some r => Some r
    | None => getNextRefIdChar queries
    end in
  mkDataQuery refId (Some key) (expr target).

Fixpoint ensureLoop (queries : list DataQuery) (index : nat)
    (allQueries : list DataQuery) : list DataQuery :=
  match queries with
  | [] => allQueries
  | q :: rest =>
      ensureLoop rest (S index)
        (allQueries ++ [generateNewKeyAndAddRefIdIfMissing q allQueries index])
  end.

(** At least one query: an empty list becomes one empty query. *)
Definition ensureQueries (queries : list DataQuery) : list DataQuery :=
  match queries with
  | [] => [mkDataQuery (Some "A") (Some "Q-0") ""]
  | _ :: _ => ensureLoop queries 0 []
  end.

Definition now : Z := 1600000000000.

Definition resolveTime (t : TimeValue) : Z :=
  match t with
  | TimeMoment ms => ms
  | TimeString s =>
      if bool_decide (s = "now-1h") then now - 3600000
      else if bool_decide (s = "now-6h") then now - 21600000
      else now
  end.

Definition getTimeRangeFromUrl (range : option RawTimeRange.t)
    (timeZone : string) : TimeRange.t :=
  let raw := orDefault range hourAgo in
  TimeRange.mk (resolveTime (RawTimeRange.from raw))
    (resolveTime (RawTimeRange.to raw)) raw.

(** A stand-in for the URL parser that knows four URLs; anything else
    parses to the parser's fallback state. *)
Definition parseUrlState (urlQuery : string) : ExploreUrlState.t :=
  if bool_decide (urlQuery = "[now-6h,now,A,{refId:A}]") then
    ExploreUrlState.mk (Some "A") [mkDataQuery (Some "A") None "up"]
      (Some sixHoursAgo) None
  else if bool_decide (urlQuery = "[now-6h,now,A,{expr:rate}]") then
    ExploreUrlState.mk (Some "A") [mkDataQuery None None "rate"]
      (Some sixHoursAgo) None
  else if bool_decide (urlQuery = "[now-1h,now,A,{expr:rate}]") then
    ExploreUrlState.mk (Some "A") [mkDataQuery None None "rate"]
      (Some hourAgo) None
  else if bool_decide (urlQuery = "[now-1h,now,B,{expr:rate}]") then
    ExploreUrlState.mk (Some "B") [mkDataQuery None None "rate"]
      (Some hourAgo) None
  else ExploreUrlState.mk None [] (Some hourAgo) None.

Definition coreUtils : CoreUtils :=
  Build_CoreUtils hourAgo getQueryKeys parseUrlState
    generateNewKeyAndAddRefIdIfMissing ensureQueries getTimeRangeFromUrl.

(** The query reducer answers [setQueriesAction] by replacing the
    queries and their keys together; the other three reducers do not
    know any action of this model. *)
Definition queryReducer (state : ExploreItemState) (action : Action)
  : ExploreItemState :=
  match action with
  | setQueriesAction payload =>
      let queries := SetQueriesPayload.queries payload in
      {| containerWidth := containerWidth state;
         eventBridge := eventBridge state;
         queries := queries;
         queryKeys := getQueryKeys queries (datasourceInstance state);
         range := range state;
         initialized := initialized state;
         datasourceInstance := datasourceInstance state;
         datasourceMissing := datasourceMissing state;
         history := history state;
         dedupStrategy := dedupStrategy state;
         hiddenLogLevels := hiddenLogLevels state;
         logsHighlighterExpressions := logsHighlighterExpressions state;
         queryResponse := queryResponse state;
         originPanelId := originPanelId state |}
  | _ => state
  end.

Definition untouched (state : ExploreItemState) (action : Action)
  : ExploreItemState := state.

Definition createEmptyQueryResponse : PanelData :=
  mkPanelData LoadingState.NotStarted [].

Definition makeExplorePaneState : ExploreItemState :=
  {| containerWidth := 0;
     eventBridge := EventBus 0;
     queries := [];
     queryKeys := [];
     range := getTimeRangeFromUrl None "browser";
     initialized := false;
     datasourceInstance := None;
     datasourceMissing := false;
     history := [];
     dedupStrategy := LogsDedupStrategy.none;
     hiddenLogLevels := [];
     logsHighlighterExpressions := None;
     queryResponse := createEmptyQueryResponse;
     originPanelId := None |}.

Definition subReducers : SubReducers :=
  Build_SubReducers queryReducer untouched untouched untouched
    makeExplorePaneState createEmptyQueryResponse.

Definition getUrlStateFromPaneState (p : ExploreItemState)
  : ExploreUrlState.t :=
  ExploreUrlState.mk (name <$> datasourceInstance p)
    (map (fun q => mkDataQuery (refId q) None (expr q)) (queries p))
    (Some (TimeRange.raw (range p))) (originPanelId p).

(** [updateTime] resolves the raw range it is given, or the pane's own,
    and stores it in the pane. *)
Definition updateTimeEffect (exploreId : ExploreId.t)
    (rawRange : option RawTimeRange.t) (s : StoreState) : StoreState :=
  let p := pane exploreId (explore s) in
  let raw := orDefault rawRange (TimeRange.raw (range p)) in
  let p' :=
    {| containerWidth := containerWidth p;
       eventBridge := eventBridge p;
       queries := queries p;
       queryKeys := queryKeys p;
       range := getTimeRangeFromUrl (Some raw) (timeZone (user s));
       initialized := initialized p;
       datasourceInstance := datasourceInstance p;
       datasourceMissing := datasourceMissing p;
       history := history p;
       dedupStrategy := dedupStrategy p;
       hiddenLogLevels := hiddenLogLevels p;
       logsHighlighterExpressions := logsHighlighterExpressions p;
       queryResponse := queryResponse p;
       originPanelId := originPanelId p |} in
  mkStoreState (setPane exploreId p' (explore s)) (user s).

(** [runQueries] marks the pane's response as loading. *)
Definition runQueriesEffect (exploreId : ExploreId.t) (s : StoreState)
  : StoreState :=
  let p := pane exploreId (explore s) in
  let p' :=
    {| containerWidth := containerWidth p;
       eventBridge := eventBridge p;
       queries := queries p;
       queryKeys := queryKeys p;
       range := range p;
       initialized := initialized p;
       datasourceInstance := datasourceInstance p;
       datasourceMissing := datasourceMissing p;
       history := history p;
       dedupStrategy := dedupStrategy p;
       hiddenLogLevels := hiddenLogLevels p;
       logsHighlighterExpressions := logsHighlighterExpressions p;
       queryResponse :=
         mkPanelData LoadingState.Loading (series (queryResponse p));
       originPanelId := originPanelId p |} in
  mkStoreState (setPane exploreId p' (explore s)) (user s).

(** The loader knows the data sources "A" and "B" and rejects any other
    name. *)
Definition loadAndInitDatasource (orgId : Z) (datasourceName : option string)
  : option LoadResult :=
  match datasourceName with
  | Some n =>
      if bool_decide (n = "A") then
        Some (mkLoadResult (Some (mkDataSourceApi "A" 1)) [])
      else if bool_decide (n = "B") then
        Some (mkLoadResult (Some (mkDataSourceApi "B" 2)) [])
      else None
  | None => Some (mkLoadResult (Some (mkDataSourceApi "A" 1)) [])
  end.

Definition services : Services :=
  Build_Services ["A"; "B"] loadAndInitDatasource [] timeZone
    getUrlStateFromPaneState updateTimeEffect runQueriesEffect.

(** The same services in an installation without any data source. *)
Definition servicesNoDatasource : Services :=
  Build_Services [] loadAndInitDatasource [] timeZone
    getUrlStateFromPaneState updateTimeEffect runQueriesEffect.

(** A pane bound to data source "A" with the query [{refId: "A"}] over
    the last hour. *)
Definition paneA : ExploreItemState :=
  {| containerWidth := 800;
     eventBridge := EventBus 1;
     queries := [mkDataQuery (Some "A") (Some "Q-0") "up"];
     queryKeys := ["A-0"];
     range := getTimeRangeFromUrl (Some hourAgo) "browser";
     initialized := true;
     datasourceInstance := Some (mkDataSourceApi "A" 1);
     datasourceMissing := false;
     history := [];
     dedupStrategy := LogsDedupStrategy.none;
     hiddenLogLevels := [];
     logsHighlighterExpressions := None;
     queryResponse := createEmptyQueryResponse;
     originPanelId := None |}.

(** A store whose left pane is [paneA] and whose right pane has not been
    initialized. *)
Definition store0 : StoreState :=
  mkStoreState (ExploreState.mk false paneA makeExplorePaneState [])
    (mkUserState 1 "browser").

(** An Initialize action that binds data source "B". *)
Definition initializeB : InitializeExplorePayload.t :=
  InitializeExplorePayload.mk ExploreId.left 800 (EventBus 1)
    [mkDataQuery (Some "A") (Some "Q-0") "up"]
    (getTimeRangeFromUrl (Some hourAgo) "browser") []
    (Some (mkDataSourceApi "B" 2)) None.

End Sample.

(** ** Further vocabulary for the reducer and the thunks *)

(** The four actions that set one display field of the pane, by the
    field they set. *)
Inductive DisplayField : Type :=
| fieldContainerWidth
| fieldDedupStrategy
| fieldLogsHighlighterExpressions
| fieldHiddenLogLevels.

#[global] Instance DisplayField_eq_dec : EqDecision DisplayField.
Proof. solve_decision. Defined.

Definition displayField (action : Action) : option DisplayField :=
  match action with
  | changeSizeAction _ => Some fieldContainerWidth
  | changeDedupStrategyAction _ => Some fieldDedupStrategy
  | highlightLogsExpressionAction _ => Some fieldLogsHighlighterExpressions
  | toggleLogLevelAction _ => Some fieldHiddenLogLevels
  | _ => None
  end.

Definition isInitialize (action : Action) : bool :=
  match action with
  | initializeExploreAction _ => true
  | _ => false
  end.

(** [datasourceMissing] says that no instance is bound. *)
Definition missingMatchesInstance (state : ExploreItemState) : Prop :=
  datasourceMissing state = negb (truthy (datasourceInstance state)).

(** The pane a dispatched value names in its payload or arguments; the
    rich-history snapshot names none. *)
Definition actionTarget (action : Action) : option ExploreId.t :=
  match action with
  | changeSizeAction p => Some (ChangeSizePayload.exploreId p)
  | changeDedupStrategyAction p =>
      Some (ChangeDedupStrategyPayload.exploreId p)
  | highlightLogsExpressionAction p =>
      Some (HighlightLogsExpressionPayload.exploreId p)
  | initializeExploreAction p => Some (InitializeExplorePayload.exploreId p)
  | toggleLogLevelAction p => Some (ToggleLogLevelPayload.exploreId p)
  | setUrlReplacedAction p => Some (SetUrlReplacedPayload.exploreId p)
  | setQueriesAction p => Some (SetQueriesPayload.exploreId p)
  | richHistoryUpdatedAction _ => None
  | otherAction _ exploreId => exploreId
  end.

Definition dispatchTarget (d : Dispatchable) : option ExploreId.t :=
  match d with
  | plain action => actionTarget action
  | updateTime exploreId _ => Some exploreId
  | runQueries exploreId => Some exploreId
  | initializeExploreThunk exploreId _ _ _ _ _ _ => Some exploreId
  end.

Section OrchestratorVocabulary.
Context `{Services}.

(** The history [initializeExplore] ends up with: empty when no data
    source is configured or the loader rejects, else the loader's. *)
Definition resolvedHistory (datasourceName : option string) (s : StoreState)
  : list HistoryItem :=
  match getExploreDatasources with
  | [] => []
  | _ :: _ =>
      match loadAndInitDatasource (orgId (user s)) datasourceName with
      | Some loadResult => loaded_history loadResult
      | None => []
      end
  end.

(** The loader rejects the call [initializeExplore] would make. *)
Definition loadRejects (datasourceName : option string) (s : StoreState)
  : Prop :=
  getExploreDatasources <> []
  /\ loadAndInitDatasource (orgId (user s)) datasourceName = None.

End OrchestratorVocabulary.

(** ** The wrapper component *)

Module Wrapper.

Record WrapperProps : Type := mkProps { split : bool }.

(** An [Explore] element inside its error boundary. *)
Inductive Element : Type := Explore (exploreId : ExploreId.t).

#[global] Instance Element_eq_dec : EqDecision Element.
Proof. solve_decision. Defined.

(** The children of the [explore-wrapper] element, in order. *)
Definition render (props : WrapperProps) : list Element :=
  Explore ExploreId.left
    :: (if split props then [Explore ExploreId.right] else []).

Definition mapStateToProps (state : StoreState) : WrapperProps :=
  let split := ExploreState.split (explore state) in
  mkProps split.

End Wrapper.

(** ** More sample inputs *)

Module Scenario.

(** The sample pane looking at the last six hours, without a key on its
    query. *)
Definition paneSixHours : ExploreItemState :=
  {| containerWidth := 800;
     eventBridge := EventBus 1;
     queries := [mkDataQuery (Some "A") None "up"];
     queryKeys := ["A-0"];
     range := Sample.getTimeRangeFromUrl (Some Sample.sixHoursAgo) "browser";
     initialized := true;
     datasourceInstance := Some (mkDataSourceApi "A" 1);
     datasourceMissing := false;
     history := [];
     dedupStrategy := LogsDedupStrategy.none;
     hiddenLogLevels := [];
     logsHighlighterExpressions := None;
     queryResponse := Sample.createEmptyQueryResponse;
     originPanelId := Some 7 |}.

Definition storeSixHours : StoreState :=
  mkStoreState
    (ExploreState.mk true paneSixHours Sample.makeExplorePaneState [])
    (mkUserState 1 "browser").





Definition resize : Action := changeSize ExploreId.left 768 1024.

Definition dedupExact : Action :=
  changeDedupStrategy ExploreId.left LogsDedupStrategy.exact.

Definition hideDebug : Action :=
  toggleLogLevelAction
    (ToggleLogLevelPayload.mk ExploreId.left [LogLevel.debug]).

Definition hideTrace : Action :=
  toggleLogLevelAction
    (ToggleLogLevelPayload.mk ExploreId.left [LogLevel.trace; LogLevel.info]).

End Scenario.

(** * Properties *)

(** ** urlDiff *)

Section ComparatorFacts.
Context `{CoreUtils}.

Lemma isEqual_refl {A : Type} `{EqDecision A} (x : A) : isEqual x x = true.
Proof. unfold isEqual. apply bool_decide_eq_true. reflexivity. Qed.

Lemma negb_isEqual_true {A : Type} `{EqDecision A} (x y : A) :
  negb (isEqual x y) = true <-> x <> y.
Proof.
  rewrite negb_true_iff. unfold isEqual.
  rewrite bool_decide_eq_false. reflexivity.
Qed.

Lemma orDefault_resolved (s : option ExploreUrlState.t) :
  orDefault (s ≫= ExploreUrlState.range) DEFAULT_RANGE = resolvedRange s.
Proof.
  destruct s as [u|]; simpl; [destruct (ExploreUrlState.range u)|];
    reflexivity.
Qed.

(** C8: [urlDiff] is a total function of its two arguments that returns
    nothing but the record of three flags; with both arguments absent it
    returns all-false; its range flag is true exactly when the two ranges
    differ once the default range stands in for an absent one (an absent
    state or an absent range in a state); and two states whose ranges are
    both absent do not differ in range. *)
Theorem urlDiff_absent_and_range :
  urlDiff None None = allFalse
  /\ (forall o c : option ExploreUrlState.t,
        UrlDiff.range (urlDiff o c) = true
        <-> resolvedRange c <> resolvedRange o)
  /\ (forall (d d' : option string) (q q' : list DataQuery)
             (p p' : option Z),
        UrlDiff.range
          (urlDiff (Some (ExploreUrlState.mk d q None p))
                   (Some (ExploreUrlState.mk d' q' None p'))) = false).
Proof.
  split; [|split].
  - unfold urlDiff, allFalse. simpl. rewrite !isEqual_refl. reflexivity.
  - intros o c. unfold urlDiff. simpl.
    rewrite !orDefault_resolved. apply negb_isEqual_true.
  - intros. unfold urlDiff. simpl. rewrite isEqual_refl. reflexivity.
Qed.

(** C9: comparing a view state with itself reports no difference, in
    the data source, the queries or the range; the same holds of an
    absent state. *)
Theorem urlDiff_refl (S : ExploreUrlState.t) :
  urlDiff (Some S) (Some S) = UrlDiff.mk false false false
  /\ urlDiff None None = UrlDiff.mk false false false.
Proof.
  unfold urlDiff. rewrite !isEqual_refl. split; reflexivity.
Qed.

End ComparatorFacts.

(** ** paneReducer *)

Section ReducerFacts.
Context `{CoreUtils} `{SubReducers}.

(** What Initialize writes, field by field.  The keys are computed from
    the data source of the state the four reducers returned, not from
    the one the action carries. *)
Lemma paneReducer_initialize (s : ExploreItemState)
    (p : InitializeExplorePayload.t) :
  let s' := paneReducer s (initializeExploreAction p) in
  queries s' = InitializeExplorePayload.queries p
  /\ queryKeys s'
     = getQueryKeys (InitializeExplorePayload.queries p)
         (datasourceInstance (subReducers s (initializeExploreAction p)))
  /\ initialized s' = true
  /\ datasourceInstance s' = InitializeExplorePayload.datasourceInstance p
  /\ datasourceMissing s'
     = negb (truthy (InitializeExplorePayload.datasourceInstance p)).
Proof. simpl. repeat split; reflexivity. Qed.




(** C10: when the four reducers do not react to ChangeSize, the pane
    after ChangeSize has the action's width as [containerWidth] and
    every other field as before, whatever height the action carries. *)
Theorem paneReducer_changeSize (s : ExploreItemState)
    (p : ChangeSizePayload.t)
    (Hsub : forall p', subReducers s (changeSizeAction p') = s) :
  let s' := paneReducer s (changeSizeAction p) in
  containerWidth s' = ChangeSizePayload.width p
  /\ eventBridge s' = eventBridge s
  /\ queries s' = queries s
  /\ queryKeys s' = queryKeys s
  /\ range s' = range s
  /\ initialized s' = initialized s
  /\ datasourceInstance s' = datasourceInstance s
  /\ datasourceMissing s' = datasourceMissing s
  /\ history s' = history s
  /\ dedupStrategy s' = dedupStrategy s
  /\ hiddenLogLevels s' = hiddenLogLevels s
  /\ logsHighlighterExpressions s' = logsHighlighterExpressions s
  /\ queryResponse s' = queryResponse s
  /\ originPanelId s' = originPanelId s
  /\ forall height',
       paneReducer s
         (changeSizeAction
            (ChangeSizePayload.mk (ChangeSizePayload.exploreId p)
               (ChangeSizePayload.width p) height')) = s'.
Proof.
  simpl. unfold paneReducer. rewrite (Hsub p).
  repeat split. intros height'. rewrite (Hsub _). reflexivity.
Qed.

End ReducerFacts.

(** ** The thunks *)

Section ThunkFacts.
Context `{CoreUtils} `{SubReducers} `{Services}.

Ltac run_thunk :=
  unfold runRefreshExplore, runInitializeExplore, refreshExplore,
    initializeExplore, getState, dispatch, await_loadAndInitDatasource, when,
    mbind, mret, Thunk_bind, Thunk_ret;
  cbn [bind runWith outcome store dispatched loads fst snd].

Lemma pane_setPane (exploreId : ExploreId.t) (p : ExploreItemState)
    (e : ExploreState.t) :
  pane exploreId (setPane exploreId p e) = p.
Proof. destruct exploreId; reflexivity. Qed.

(** The pane an Initialize action names, after the action is reduced. *)
Lemma pane_reduce_initialize (p : InitializeExplorePayload.t)
    (s : StoreState) :
  let exploreId := InitializeExplorePayload.exploreId p in
  pane exploreId (explore (reduce (initializeExploreAction p) s))
  = paneReducer (pane exploreId (explore s)) (initializeExploreAction p).
Proof. cbn. apply pane_setPane. Qed.

(** The rich-history snapshot touches no pane. *)
Lemma pane_reduce_richHistory (exploreId : ExploreId.t)
    (richHistory : list RichHistoryQuery) (s : StoreState) :
  pane exploreId (explore (reduce (richHistoryUpdatedAction richHistory) s))
  = pane exploreId (explore s).
Proof. destruct exploreId; reflexivity. Qed.

(** C5: on a pane whose [initialized] flag is false, [refreshExplore]
    ends normally, hands nothing to [dispatch], asks for no data source
    and leaves the store, hence the pane, as it was, whatever the URL
    query string. *)
Theorem refreshExplore_uninitialized_noop (exploreId : ExploreId.t)
    (urlQuery : string) (s : StoreState)
    (Hinit : initialized (pane exploreId (explore s)) = false) :
  let r := runRefreshExplore exploreId urlQuery s in
  outcome r = Fulfilled
  /\ dispatched r = []
  /\ loads r = []
  /\ store r = s
  /\ pane exploreId (explore (store r)) = pane exploreId (explore s).
Proof. run_thunk. rewrite Hinit. cbn. repeat split. Qed.

(** C2: on an initialized pane, when the diff has the data source
    unchanged and the queries or the range (or both) changed,
    [refreshExplore] hands exactly one query run to [dispatch], for its
    own pane. *)
Theorem refreshExplore_one_query_run (exploreId : ExploreId.t)
    (urlQuery : string) (s : StoreState)
    (Hinit : initialized (pane exploreId (explore s)) = true)
    (Hds : UrlDiff.datasource (refreshUpdate exploreId urlQuery s) = false)
    (Hany : UrlDiff.queries (refreshUpdate exploreId urlQuery s)
            || UrlDiff.range (refreshUpdate exploreId urlQuery s) = true) :
  let r := runRefreshExplore exploreId urlQuery s in
  filter (fun d => isRunQueries d = true) (dispatched r)
  = [runQueries exploreId]
  /\ countDispatched isRunQueries (dispatched r) = 1%nat.
Proof.
  unfold countDispatched, refreshUpdate in *. run_thunk.
  rewrite Hinit. cbn [negb]. rewrite Hds.
  destruct (UrlDiff.range _), (UrlDiff.queries _);
    try discriminate Hany; split; reflexivity.
Qed.


(** C4, as the code has it: on an initialized pane, when the diff has
    the data source unchanged, the two corrections are independent of
    each other.  A time update with the raw part of the resolved range
    is dispatched exactly when the range changed; a query-list
    replacement with the list built by the refresh loop is dispatched
    exactly when the queries changed, whether or not the range changed
    too; the query run follows when either did.  Nothing else is
    dispatched, and this is the order. *)
Theorem refreshExplore_independent_corrections (exploreId : ExploreId.t)
    (urlQuery : string) (s : StoreState)
    (Hinit : initialized (pane exploreId (explore s)) = true)
    (Hds : UrlDiff.datasource (refreshUpdate exploreId urlQuery s) = false) :
  let update := refreshUpdate exploreId urlQuery s in
  dispatched (runRefreshExplore exploreId urlQuery s)
  = ((if UrlDiff.range update
      then [updateTime exploreId
              (Some (TimeRange.raw (refreshRange urlQuery s)))]
      else [])
     ++ (if UrlDiff.queries update
         then [plain
                 (setQueriesAction
                    (SetQueriesPayload.mk exploreId
                       (refreshLoop
                          (ExploreUrlState.queries (parseUrlState urlQuery))
                          0 [])))]
         else [])
     ++ (if UrlDiff.queries update || UrlDiff.range update
         then [runQueries exploreId]
         else []))%list.
Proof.
  unfold refreshUpdate, refreshRange in *. run_thunk.
  rewrite Hinit. cbn [negb]. rewrite Hds.
  destruct (UrlDiff.range _), (UrlDiff.queries _); reflexivity.
Qed.

(** C6: with no data source configured, [initializeExplore] ends
    normally and never calls the loader; it dispatches Initialize with
    no instance and an empty history, the time update and the
    rich-history snapshot, and no query run; and, [updateTime] leaving
    the pane's data source fields alone, the pane ends with
    [datasourceInstance] absent and [datasourceMissing] true.  In every
    installation, a query run is among the dispatches exactly when an
    instance was resolved. *)
Theorem initializeExplore_missing_datasource_and_query_run
    (exploreId : ExploreId.t) (datasourceName : option string)
    (queries : list DataQuery) (range : TimeRange.t) (containerWidth : Z)
    (eventBridge : EventBusExtended) (originPanelId : option Z)
    (s : StoreState) :
  let r :=
    runInitializeExplore exploreId datasourceName queries range
      containerWidth eventBridge originPanelId s in
  (getExploreDatasources = [] ->
   (forall rawRange s0,
       let p0 := pane exploreId (explore s0) in
       let p1 := pane exploreId (explore (updateTimeEffect exploreId rawRange s0)) in
       datasourceInstance p1 = datasourceInstance p0
       /\ datasourceMissing p1 = datasourceMissing p0) ->
   outcome r = Fulfilled
   /\ loads r = []
   /\ dispatched r
      = [plain
           (initializeExploreAction
              (InitializeExplorePayload.mk exploreId containerWidth
                 eventBridge queries range [] None originPanelId));
         updateTime exploreId None;
         plain (richHistoryUpdatedAction getRichHistory)]
   /\ datasourceInstance (pane exploreId (explore (store r))) = None
   /\ datasourceMissing (pane exploreId (explore (store r))) = true)
  /\ (In (runQueries exploreId) (dispatched r)
      <-> is_Some (resolvedInstance datasourceName s)).
Proof.
  split.
  - intros Hnone Hframe. unfold runInitializeExplore, initializeExplore.
    rewrite Hnone. run_thunk. cbn [length Nat.leb bind runWith fst snd
      truthy outcome store dispatched loads handleBase].
    repeat split.
    + rewrite pane_reduce_richHistory.
      destruct (Hframe None
                  (reduce
                     (initializeExploreAction
                        (InitializeExplorePayload.mk exploreId containerWidth
                           eventBridge queries range [] None originPanelId))
                     s)) as [-> _].
      rewrite (pane_reduce_initialize
                 (InitializeExplorePayload.mk exploreId containerWidth
                    eventBridge queries range [] None originPanelId)).
      reflexivity.
    + rewrite pane_reduce_richHistory.
      destruct (Hframe None
                  (reduce
                     (initializeExploreAction
                        (InitializeExplorePayload.mk exploreId containerWidth
                           eventBridge queries range [] None originPanelId))
                     s)) as [_ ->].
      rewrite (pane_reduce_initialize
                 (InitializeExplorePayload.mk exploreId containerWidth
                    eventBridge queries range [] None originPanelId)).
      reflexivity.
  - unfold runInitializeExplore, initializeExplore, resolvedInstance.
    destruct getExploreDatasources as [|d ds].
    + run_thunk. cbn. split.
      * intros [Hc|[Hc|[Hc|[]]]]; discriminate Hc.
      * intros [x Hx]. discriminate Hx.
    + run_thunk. cbn [length Nat.leb bind runWith].
      destruct (loadAndInitDatasource (orgId (user s)) datasourceName)
        as [[[ds0|] hist]|].
      * cbn. split; [intros _; eexists; reflexivity | intros _; tauto].
      * cbn. split.
        -- intros [Hc|[Hc|[Hc|[]]]]; discriminate Hc.
        -- intros [x Hx]. discriminate Hx.
      * cbn. split; [intros [] | intros [x Hx]; discriminate Hx].
Qed.

End ThunkFacts.

(** ** The sample environment at work *)



(** C1: Initialize on a pane bound to data source "A", carrying data
    source "B" and one query.  The pane ends bound to "B", yet its keys
    are the keys of the query under "A", the data source the pane had
    before: they are not the keys of the new queries under the new data
    source. *)
Theorem paneReducer_initialize_keys_from_previous_datasource :
  let s' :=
    @paneReducer Sample.coreUtils Sample.subReducers Sample.paneA
      (initializeExploreAction Sample.initializeB) in
  datasourceInstance s' = Some (mkDataSourceApi "B" 2)
  /\ queryKeys s' = ["A-0"]
  /\ @getQueryKeys Sample.coreUtils
       (InitializeExplorePayload.queries Sample.initializeB)
       (InitializeExplorePayload.datasourceInstance Sample.initializeB)
     = ["B-0"]
  /\ queryKeys s'
     <> @getQueryKeys Sample.coreUtils
          (InitializeExplorePayload.queries Sample.initializeB)
          (InitializeExplorePayload.datasourceInstance Sample.initializeB).
Proof.
  vm_compute. repeat split; try reflexivity. intros Heq. discriminate Heq.
Qed.

(** C4 as the spec has it fails: the URL changes both the range and the
    query of the sample pane, the data source stays, and the query list
    is replaced although the range changed. *)
Lemma refreshExplore_not_else_chain :
  let update :=
    @refreshUpdate Sample.coreUtils Sample.services ExploreId.left
      "[now-6h,now,A,{expr:rate}]" Sample.store0 in
  let r :=
    @runRefreshExplore Sample.coreUtils Sample.subReducers Sample.services
      ExploreId.left "[now-6h,now,A,{expr:rate}]" Sample.store0 in
  ~ (UrlDiff.datasource update = false ->
     UrlDiff.range update = true ->
     countDispatched isSetQueries (dispatched r) = 0%nat).
Proof.
  intros update r Hclaim.
  specialize (Hclaim eq_refl eq_refl). vm_compute in Hclaim.
  discriminate Hclaim.
Qed.

(** *** The theorems above at the sample inputs *)

(** The URL changes both the range and the query: one query run. *)
Lemma refreshExplore_one_query_run_witness :
  initialized (pane ExploreId.left (explore Sample.store0)) = true
  /\ @refreshUpdate Sample.coreUtils Sample.services ExploreId.left
       "[now-6h,now,A,{expr:rate}]" Sample.store0
     = UrlDiff.mk false true true
  /\ countDispatched isRunQueries
       (dispatched
          (@runRefreshExplore Sample.coreUtils Sample.subReducers
             Sample.services ExploreId.left "[now-6h,now,A,{expr:rate}]"
             Sample.store0))
     = 1%nat.
Proof.
  split; [reflexivity|]. split; [vm_compute; reflexivity|].
  apply (@refreshExplore_one_query_run Sample.coreUtils Sample.subReducers
           Sample.services ExploreId.left "[now-6h,now,A,{expr:rate}]"
           Sample.store0); vm_compute; reflexivity.
Defined.


(** The URL changes both the range and the query: the time update, the
    query-list replacement and the query run, in this order. *)
Lemma refreshExplore_independent_corrections_witness :
  dispatched
    (@runRefreshExplore Sample.coreUtils Sample.subReducers Sample.services
       ExploreId.left "[now-6h,now,A,{expr:rate}]" Sample.store0)
  = [updateTime ExploreId.left (Some Sample.sixHoursAgo);
     plain
       (setQueriesAction
          (SetQueriesPayload.mk ExploreId.left
             [mkDataQuery (Some "A") (Some "Q-0") "rate"]));
     runQueries ExploreId.left].
Proof.
  apply (@refreshExplore_independent_corrections Sample.coreUtils
           Sample.subReducers Sample.services ExploreId.left
           "[now-6h,now,A,{expr:rate}]" Sample.store0);
    vm_compute; reflexivity.
Defined.

(** The right pane of the sample store is not initialized. *)
Lemma refreshExplore_uninitialized_noop_witness :
  initialized (pane ExploreId.right (explore Sample.store0)) = false
  /\ store
       (@runRefreshExplore Sample.coreUtils Sample.subReducers
          Sample.services ExploreId.right "[now-1h,now,B,{expr:rate}]"
          Sample.store0)
     = Sample.store0
  /\ dispatched
       (@runRefreshExplore Sample.coreUtils Sample.subReducers
          Sample.services ExploreId.right "[now-1h,now,B,{expr:rate}]"
          Sample.store0)
     = [].
Proof.
  split; [reflexivity|].
  pose proof
    (@refreshExplore_uninitialized_noop Sample.coreUtils Sample.subReducers
       Sample.services ExploreId.right "[now-1h,now,B,{expr:rate}]"
       Sample.store0 eq_refl) as (_ & Hd & _ & Hs & _).
  split; [exact Hs | exact Hd].
Defined.

(** An installation without data sources: the right pane is initialized
    with no instance. *)
Lemma initializeExplore_missing_datasource_and_query_run_witness :
  let r :=
    @runInitializeExplore Sample.coreUtils Sample.subReducers
      Sample.servicesNoDatasource ExploreId.right (Some "A") []
      (Sample.getTimeRangeFromUrl None "browser") 640 (EventBus 2) None
      Sample.store0 in
  @getExploreDatasources Sample.servicesNoDatasource = []
  /\ outcome r = Fulfilled
  /\ loads r = []
  /\ datasourceInstance (pane ExploreId.right (explore (store r))) = None
  /\ datasourceMissing (pane ExploreId.right (explore (store r))) = true.
Proof.
  intros r. split; [reflexivity|].
  destruct
    (@initializeExplore_missing_datasource_and_query_run Sample.coreUtils
       Sample.subReducers Sample.servicesNoDatasource ExploreId.right
       (Some "A") [] (Sample.getTimeRangeFromUrl None "browser") 640
       (EventBus 2) None Sample.store0) as [Hnone _].
  destruct Hnone as (Ho & Hl & _ & Hi & Hm).
  - reflexivity.
  - intros rawRange s0. simpl. split; reflexivity.
  - repeat split; assumption.
Defined.




(** The sample pane resized to 1024 by 768. *)
Lemma paneReducer_changeSize_witness :
  containerWidth
    (@paneReducer Sample.coreUtils Sample.subReducers Sample.paneA
       (changeSize ExploreId.left 768 1024)) = 1024
  /\ queries
       (@paneReducer Sample.coreUtils Sample.subReducers Sample.paneA
          (changeSize ExploreId.left 768 1024)) = queries Sample.paneA.
Proof.
  destruct
    (@paneReducer_changeSize Sample.coreUtils Sample.subReducers Sample.paneA
       (ChangeSizePayload.mk ExploreId.left 1024 768)
       (fun p' => eq_refl)) as (Hw & _ & Hq & _).
  split; [exact Hw | exact Hq].
Defined.

(** * Further properties *)

(** ** urlDiff, beyond reflexivity *)

Section ComparatorMore.
Context `{CoreUtils}.

Lemma isEqual_sym {A : Type} `{EqDecision A} (x y : A) :
  isEqual x y = isEqual y x.
Proof.
  unfold isEqual. destruct (decide (x = y)) as [->|Hne].
  - reflexivity.
  - rewrite !bool_decide_eq_false_2; [reflexivity | congruence | exact Hne].
Qed.

Lemma negb_isEqual_false {A : Type} `{EqDecision A} (x y : A) :
  negb (isEqual x y) = false <-> x = y.
Proof.
  rewrite negb_false_iff. unfold isEqual. apply bool_decide_eq_true.
Qed.

(** X1: the diff does not depend on which state is called old and which
    current. *)
Theorem urlDiff_sym (o c : option ExploreUrlState.t) :
  urlDiff o c = urlDiff c o.
Proof.
  unfold urlDiff.
  rewrite (isEqual_sym (ExploreUrlState.datasource <$> c)).
  rewrite (isEqual_sym (ExploreUrlState.queries <$> c)).
  rewrite (isEqual_sym (orDefault (c ≫= ExploreUrlState.range) DEFAULT_RANGE)).
  reflexivity.
Qed.

(** X2: the diff is all-false exactly when the two states have the same
    data source, the same queries in the same order and the same range
    once the default stands in for an absent one. *)
Theorem urlDiff_allFalse_iff (o c : option ExploreUrlState.t) :
  urlDiff o c = allFalse
  <-> (ExploreUrlState.datasource <$> c) = (ExploreUrlState.datasource <$> o)
      /\ (ExploreUrlState.queries <$> c) = (ExploreUrlState.queries <$> o)
      /\ resolvedRange c = resolvedRange o.
Proof.
  unfold urlDiff, allFalse. rewrite !orDefault_resolved. split.
  - intros Heq. injection Heq as Hd Hq Hr.
    apply (proj1 (negb_isEqual_false _ _)) in Hd.
    apply (proj1 (negb_isEqual_false _ _)) in Hq.
    apply (proj1 (negb_isEqual_false _ _)) in Hr.
    repeat split; assumption.
  - intros (Hd & Hq & Hr).
    apply (proj2 (negb_isEqual_false _ _)) in Hd.
    apply (proj2 (negb_isEqual_false _ _)) in Hq.
    apply (proj2 (negb_isEqual_false _ _)) in Hr.
    rewrite Hd, Hq, Hr. reflexivity.
Qed.

(** X3: the panel a pane was opened from plays no part in the diff. *)
Theorem urlDiff_ignores_originPanelId (d : option string)
    (q : list DataQuery) (r : option RawTimeRange.t) (p p' : option Z) :
  urlDiff (Some (ExploreUrlState.mk d q r p))
          (Some (ExploreUrlState.mk d q r p')) = allFalse.
Proof. apply urlDiff_allFalse_iff. repeat split. Qed.

(** X4: an absent state against a present one always differs in data
    source and in queries, even when the present one has no data source
    and no query; it differs in range exactly when the present range is
    given and is not the default one. *)
Theorem urlDiff_absent_present (u : ExploreUrlState.t) :
  UrlDiff.datasource (urlDiff None (Some u)) = true
  /\ UrlDiff.queries (urlDiff None (Some u)) = true
  /\ (UrlDiff.range (urlDiff None (Some u)) = true
      <-> exists r, ExploreUrlState.range u = Some r /\ r <> DEFAULT_RANGE).
Proof.
  unfold urlDiff. cbn [UrlDiff.datasource UrlDiff.queries UrlDiff.range].
  split; [reflexivity|]. split; [reflexivity|]. split.
  - rewrite orDefault_resolved. intros Hne%negb_isEqual_true. simpl in Hne.
    destruct (ExploreUrlState.range u) as [r|]; [|congruence].
    exists r. split; [reflexivity | exact Hne].
  - intros (r & Hr & Hne). rewrite orDefault_resolved.
    apply negb_isEqual_true. simpl. rewrite Hr. exact Hne.
Qed.

End ComparatorMore.

(** ** paneReducer, the other branches *)

Section ReducerMore.
Context `{CoreUtils} `{SubReducers}.

(** X5: of two actions that set the same display field (container
    width, dedup strategy, highlighter expressions or hidden log levels)
    the later one wins, so that such an action applied twice is the same
    as applied once.  Stated for actions the four reducers let pass. *)
Theorem paneReducer_display_overwrite (s : ExploreItemState) (a b : Action)
    (k : DisplayField)
    (Ha : displayField a = Some k) (Hb : displayField b = Some k)
    (Hpass_a : forall s', subReducers s' a = s')
    (Hpass_b : forall s', subReducers s' b = s') :
  paneReducer (paneReducer s a) b = paneReducer s b
  /\ paneReducer (paneReducer s b) b = paneReducer s b.
Proof.
  destruct a; try discriminate Ha; destruct b; try discriminate Hb;
    cbn in Ha, Hb; try congruence;
    unfold paneReducer; rewrite ?Hpass_b, ?Hpass_a; split; reflexivity.
Qed.

(** X6: two actions that set different display fields commute. *)
Theorem paneReducer_display_commute (s : ExploreItemState) (a b : Action)
    (k k' : DisplayField)
    (Ha : displayField a = Some k) (Hb : displayField b = Some k')
    (Hne : k <> k')
    (Hpass_a : forall s', subReducers s' a = s')
    (Hpass_b : forall s', subReducers s' b = s') :
  paneReducer (paneReducer s a) b = paneReducer (paneReducer s b) a.
Proof.
  destruct a; try discriminate Ha; destruct b; try discriminate Hb;
    cbn in Ha, Hb; try congruence;
    unfold paneReducer; rewrite ?Hpass_b, ?Hpass_a; reflexivity.
Qed.

(** X7: when the four reducers leave [initialized] alone, a pane is
    initialized after an action exactly if it was before or the action
    is Initialize: no action of the pane resets the flag and no other
    action sets it. *)
Theorem paneReducer_initialized
    (Hsub : forall s a, initialized (subReducers s a) = initialized s)
    (s : ExploreItemState) (a : Action) :
  initialized (paneReducer s a) = initialized s || isInitialize a.
Proof.
  destruct a; cbn [paneReducer initialized isInitialize];
    rewrite ?Hsub, ?orb_false_r, ?orb_true_r; try reflexivity; apply Hsub.
Qed.

(** X8: Initialize makes [datasourceMissing] say that no instance is
    bound, whatever the pane held; and when the four reducers keep that
    agreement, so does every action of the pane. *)
Theorem paneReducer_missingMatchesInstance
    (Hsub : forall s a,
        missingMatchesInstance s -> missingMatchesInstance (subReducers s a)) :
  (forall s p,
      missingMatchesInstance (paneReducer s (initializeExploreAction p)))
  /\ (forall s a,
        missingMatchesInstance s -> missingMatchesInstance (paneReducer s a)).
Proof.
  split.
  - intros s p. reflexivity.
  - intros s a Hs. specialize (Hsub s a Hs). unfold missingMatchesInstance in *.
    destruct a; cbn [paneReducer datasourceMissing datasourceInstance];
      try exact Hsub.
    reflexivity.
Qed.

(** X9: the eleven fields Initialize writes from its payload or as
    constants do not depend on the pane before: for any two panes they
    are the same after the same Initialize action, so no earlier query,
    range, history, response, highlighter expression or origin panel
    shows in them; and the keys depend on the pane before only through
    the data source the four reducers hand on. *)
Theorem paneReducer_initialize_forgets (s1 s2 : ExploreItemState)
    (p : InitializeExplorePayload.t) :
  let t1 := paneReducer s1 (initializeExploreAction p) in
  let t2 := paneReducer s2 (initializeExploreAction p) in
  containerWidth t1 = containerWidth t2
  /\ eventBridge t1 = eventBridge t2
  /\ range t1 = range t2
  /\ queries t1 = queries t2
  /\ initialized t1 = initialized t2
  /\ originPanelId t1 = originPanelId t2
  /\ datasourceInstance t1 = datasourceInstance t2
  /\ history t1 = history t2
  /\ datasourceMissing t1 = datasourceMissing t2
  /\ queryResponse t1 = queryResponse t2
  /\ logsHighlighterExpressions t1 = logsHighlighterExpressions t2
  /\ (datasourceInstance (subReducers s1 (initializeExploreAction p))
      = datasourceInstance (subReducers s2 (initializeExploreAction p)) ->
      queryKeys t1 = queryKeys t2).
Proof.
  cbn [paneReducer containerWidth eventBridge range queries initialized
         originPanelId datasourceInstance history datasourceMissing
         queryResponse logsHighlighterExpressions queryKeys].
  repeat split. intros Hds. rewrite Hds. reflexivity.
Qed.

End ReducerMore.

(** ** The refresh loop *)

Section RefreshLoopFacts.
Context `{CoreUtils}.

Lemma refreshLoop_length (queries : list DataQuery) (index : nat)
    (acc : list DataQuery) :
  length (refreshLoop queries index acc) = (length acc + length queries)%nat.
Proof.
  revert index acc. induction queries as [|q rest IH]; intros index acc.
  - simpl. lia.
  - simpl. rewrite IH, length_app. simpl. lia.
Qed.

Lemma refreshLoop_app (qs1 qs2 : list DataQuery) (index : nat)
    (acc : list DataQuery) :
  refreshLoop (qs1 ++ qs2) index acc
  = refreshLoop qs2 (index + length qs1) (refreshLoop qs1 index acc).
Proof.
  revert index acc. induction qs1 as [|q rest IH]; intros index acc.
  - simpl. rewrite Nat.add_0_r. reflexivity.
  - simpl. rewrite IH. f_equal. lia.
Qed.

Lemma refreshLoop_extends (queries : list DataQuery) (index : nat)
    (acc : list DataQuery) :
  acc `prefix_of` refreshLoop queries index acc.
Proof.
  revert index acc. induction queries as [|q rest IH]; intros index acc.
  - simpl. reflexivity.
  - simpl. etransitivity; [|apply IH]. apply prefix_app_r. reflexivity.
Qed.

(** X10: the refresh loop returns one query per query of the URL, and
    what it returns for the first queries of a list does not depend on
    the queries that follow them. *)
Theorem refreshLoop_length_prefix (queries later : list DataQuery) :
  length (refreshLoop queries 0 []) = length queries
  /\ refreshLoop queries 0 [] `prefix_of` refreshLoop (queries ++ later) 0 [].
Proof.
  split.
  - rewrite refreshLoop_length. reflexivity.
  - rewrite refreshLoop_app. apply refreshLoop_extends.
Qed.

(** X11: the query at position [n] is handed to
    [generateNewKeyAndAddRefIdIfMissing] together with the [n] queries
    already normalised before it and with [n] as its index. *)
Theorem refreshLoop_snoc (queries : list DataQuery) (query : DataQuery) :
  refreshLoop (queries ++ [query]) 0 []
  = (refreshLoop queries 0 []
     ++ [generateNewKeyAndAddRefIdIfMissing query (refreshLoop queries 0 [])
           (length queries)])%list.
Proof. rewrite refreshLoop_app. reflexivity. Qed.

End RefreshLoopFacts.

(** ** The thunks, their other paths *)

Section ThunkMore.
Context `{CoreUtils} `{SubReducers} `{Services}.

Ltac step_thunk :=
  unfold runRefreshExplore, runInitializeExplore, refreshExplore,
    initializeExplore, getState, dispatch, await_loadAndInitDatasource, when,
    mbind, mret, Thunk_bind, Thunk_ret;
  cbn [bind runWith outcome store dispatched loads fst snd length Nat.leb].

(** X12: a call of [initializeExplore] that ends normally has
    dispatched, in this order: Initialize with the instance and the
    history the loader gave (none and empty without a configured data
    source), a time update without a raw range, a query run if and only
    if there is an instance, and the rich-history snapshot. *)
Theorem initializeExplore_dispatch_order
    (exploreId : ExploreId.t) (datasourceName : option string)
    (queries : list DataQuery) (range : TimeRange.t) (containerWidth : Z)
    (eventBridge : EventBusExtended) (originPanelId : option Z)
    (s : StoreState) :
  let r :=
    runInitializeExplore exploreId datasourceName queries range
      containerWidth eventBridge originPanelId s in
  outcome r = Fulfilled ->
  dispatched r
  = ([plain
        (initializeExploreAction
           (InitializeExplorePayload.mk exploreId containerWidth eventBridge
              queries range (resolvedHistory datasourceName s)
              (resolvedInstance datasourceName s) originPanelId));
      updateTime exploreId None]
     ++ (if truthy (resolvedInstance datasourceName s)
         then [runQueries exploreId]
         else [])
     ++ [plain (richHistoryUpdatedAction getRichHistory)])%list.
Proof.
  unfold resolvedHistory, resolvedInstance.
  unfold runInitializeExplore, initializeExplore.
  destruct getExploreDatasources as [|d ds].
  - step_thunk. intros _. reflexivity.
  - step_thunk.
    destruct (loadAndInitDatasource (orgId (user s)) datasourceName)
      as [[[ds0|] hist]|]; cbn; intros Hout;
      [reflexivity | reflexivity | discriminate Hout].
Qed.

(** X13: [initializeExplore] is rejected exactly when a data source is
    configured and the loader rejects; it has then dispatched nothing
    and the store is as it was, so the pane is not marked initialized. *)
Theorem initializeExplore_rejection
    (exploreId : ExploreId.t) (datasourceName : option string)
    (queries : list DataQuery) (range : TimeRange.t) (containerWidth : Z)
    (eventBridge : EventBusExtended) (originPanelId : option Z)
    (s : StoreState) :
  let r :=
    runInitializeExplore exploreId datasourceName queries range
      containerWidth eventBridge originPanelId s in
  (outcome r = Rejected <-> loadRejects datasourceName s)
  /\ (outcome r = Rejected -> dispatched r = [] /\ store r = s).
Proof.
  unfold loadRejects, runInitializeExplore, initializeExplore.
  destruct getExploreDatasources as [|d ds].
  - step_thunk. cbn. split.
    + split; [discriminate | intros [Hne _]; congruence].
    + discriminate.
  - step_thunk.
    destruct (loadAndInitDatasource (orgId (user s)) datasourceName)
      as [[[ds0|] hist]|]; cbn.
    + split; [split; [discriminate | intros [_ Hc]; discriminate Hc]
             | discriminate].
    + split; [split; [discriminate | intros [_ Hc]; discriminate Hc]
             | discriminate].
    + split; [split; [intros _; split; [discriminate | reflexivity]
                     | reflexivity]
             | intros _; split; reflexivity].
Qed.

(** X14: the loader is called at most once per call of
    [initializeExplore]: not at all without a configured data source,
    else once, with the organisation of the signed-in user and the name
    the thunk was given. *)
Theorem initializeExplore_loads
    (exploreId : ExploreId.t) (datasourceName : option string)
    (queries : list DataQuery) (range : TimeRange.t) (containerWidth : Z)
    (eventBridge : EventBusExtended) (originPanelId : option Z)
    (s : StoreState) :
  loads
    (runInitializeExplore exploreId datasourceName queries range
       containerWidth eventBridge originPanelId s)
  = match getExploreDatasources with
    | [] => []
    | _ :: _ => [(orgId (user s), datasourceName)]
    end.
Proof.
  unfold runInitializeExplore, initializeExplore.
  destruct getExploreDatasources as [|d ds].
  - step_thunk. reflexivity.
  - step_thunk.
    destruct (loadAndInitDatasource (orgId (user s)) datasourceName)
      as [[[ds0|] hist]|]; reflexivity.
Qed.

(** X15: [refreshExplore] itself never calls the loader and always ends
    normally, with at most three dispatches, whatever the store and the
    URL. *)
Theorem refreshExplore_never_rejects (exploreId : ExploreId.t)
    (urlQuery : string) (s : StoreState) :
  let r := runRefreshExplore exploreId urlQuery s in
  outcome r = Fulfilled /\ loads r = [] /\ (length (dispatched r) <= 3)%nat.
Proof.
  step_thunk. destruct (initialized (pane exploreId (explore s))).
  - cbn [negb].
    destruct (UrlDiff.datasource _).
    + cbn. repeat split; lia.
    + destruct (UrlDiff.range _), (UrlDiff.queries _); cbn;
        repeat split; lia.
  - cbn. repeat split; lia.
Qed.

(** X16: when the URL and the initialized pane agree on the data
    source, the queries and the range (the default standing in for an
    absent one), [refreshExplore] dispatches nothing and leaves the
    store as it is, also when they disagree on the origin panel. *)
Theorem refreshExplore_same_url_noop (exploreId : ExploreId.t)
    (urlQuery : string) (s : StoreState)
    (Hinit : initialized (pane exploreId (explore s)) = true)
    (Hds : ExploreUrlState.datasource
             (getUrlStateFromPaneState (pane exploreId (explore s)))
           = ExploreUrlState.datasource (parseUrlState urlQuery))
    (Hqs : ExploreUrlState.queries
             (getUrlStateFromPaneState (pane exploreId (explore s)))
           = ExploreUrlState.queries (parseUrlState urlQuery))
    (Hrange : resolvedRange
                (Some (getUrlStateFromPaneState (pane exploreId (explore s))))
              = resolvedRange (Some (parseUrlState urlQuery))) :
  let r := runRefreshExplore exploreId urlQuery s in
  dispatched r = [] /\ store r = s.
Proof.
  assert (Hdiff : refreshUpdate exploreId urlQuery s = allFalse).
  { unfold refreshUpdate. apply urlDiff_allFalse_iff. cbn.
    rewrite Hds, Hqs. repeat split. exact Hrange. }
  unfold refreshUpdate in Hdiff. step_thunk.
  rewrite Hinit. cbn [negb]. rewrite Hdiff. cbn. split; reflexivity.
Qed.


(** A thunk that gets to its end without awaiting has, when the call
    that starts it returns, done all that a complete run of it does. *)
Lemma startWith_settled (handle : Dispatchable -> StoreState -> StoreState)
    (t : Thunk unit) (s : StoreState) :
  pendingLoad (startWith handle t s) = None ->
  runWith handle t s
  = mkRun Fulfilled (storeAtReturn (startWith handle t s))
      (dispatchedAtReturn (startWith handle t s)) [].
Proof.
  revert s. induction t as [a|k IH|d k IH|o n k IH]; intros s Hp.
  - reflexivity.
  - cbn [runWith startWith] in *. apply IH. exact Hp.
  - cbn [runWith startWith storeAtReturn dispatchedAtReturn pendingLoad] in *.
    rewrite (IH _ Hp). reflexivity.
  - discriminate Hp.
Qed.

(** X18: neither thunk dispatches anything for the other pane: every
    value [refreshExplore] dispatches names its own pane, and every
    value [initializeExplore] dispatches names its own pane or, for the
    rich-history snapshot, none. *)
Theorem thunks_dispatch_to_own_pane (exploreId : ExploreId.t)
    (s : StoreState) :
  (forall urlQuery d,
      In d (dispatched (runRefreshExplore exploreId urlQuery s)) ->
      dispatchTarget d = Some exploreId)
  /\ (forall datasourceName queries range containerWidth eventBridge
             originPanelId d,
        In d
          (dispatched
             (runInitializeExplore exploreId datasourceName queries range
                containerWidth eventBridge originPanelId s)) ->
        dispatchTarget d = Some exploreId \/ dispatchTarget d = None).
Proof.
  split.
  - intros urlQuery d. step_thunk.
    destruct (initialized (pane exploreId (explore s))); cbn [negb].
    + destruct (UrlDiff.datasource _).
      * cbn. intros [<-|[]]. reflexivity.
      * destruct (UrlDiff.range _), (UrlDiff.queries _); cbn;
          intuition (subst; reflexivity).
    + cbn. intros [].
  - intros datasourceName queries range containerWidth eventBridge
      originPanelId d.
    unfold runInitializeExplore, initializeExplore.
    destruct getExploreDatasources as [|d0 ds].
    + step_thunk. cbn. intuition (subst; auto).
    + step_thunk.
      destruct (loadAndInitDatasource (orgId (user s)) datasourceName)
        as [[[ds0|] hist]|]; cbn; intuition (subst; auto).
Qed.

End ThunkMore.

(** ** The wrapper component *)

(** X19: the wrapper renders the left pane first and always, the right
    pane after it exactly when the store says the view is split, and
    never a pane twice. *)
Theorem Wrapper_render_panes (state : StoreState) :
  let children := Wrapper.render (Wrapper.mapStateToProps state) in
  head children = Some (Wrapper.Explore ExploreId.left)
  /\ (In (Wrapper.Explore ExploreId.right) children
      <-> ExploreState.split (explore state) = true)
  /\ NoDup children.
Proof.
  unfold Wrapper.render, Wrapper.mapStateToProps. cbn.
  destruct (ExploreState.split (explore state)).
  - split; [reflexivity|]. split.
    + split; [reflexivity | intros _; right; left; reflexivity].
    + apply NoDup_cons. split.
      * intros Hin%list_elem_of_singleton. discriminate Hin.
      * apply NoDup_singleton.
  - split; [reflexivity|]. split.
    + split; [intros [Hc|[]]; discriminate Hc | discriminate].
    + apply NoDup_singleton.
Qed.

(** ** The further properties at the sample inputs *)

Lemma sample_subReducers_initialized (s : ExploreItemState) (a : Action) :
  initialized (@subReducers Sample.subReducers s a) = initialized s.
Proof. destruct a; reflexivity. Qed.

Lemma sample_subReducers_missing (s : ExploreItemState) (a : Action) :
  missingMatchesInstance s ->
  missingMatchesInstance (@subReducers Sample.subReducers s a).
Proof. intros Hs. destruct a; exact Hs. Qed.

(** Hiding debug and then trace and info leaves trace and info hidden. *)
Lemma paneReducer_display_overwrite_witness :
  hiddenLogLevels
    (@paneReducer Sample.coreUtils Sample.subReducers
       (@paneReducer Sample.coreUtils Sample.subReducers Sample.paneA
          Scenario.hideDebug)
       Scenario.hideTrace)
  = [LogLevel.trace; LogLevel.info].
Proof.
  rewrite (proj1
             (@paneReducer_display_overwrite Sample.coreUtils
                Sample.subReducers Sample.paneA Scenario.hideDebug
                Scenario.hideTrace fieldHiddenLogLevels eq_refl eq_refl
                (fun s' => eq_refl) (fun s' => eq_refl))).
  reflexivity.
Defined.

(** Resizing and choosing a dedup strategy, in either order. *)
Lemma paneReducer_display_commute_witness :
  @paneReducer Sample.coreUtils Sample.subReducers
    (@paneReducer Sample.coreUtils Sample.subReducers Sample.paneA
       Scenario.resize)
    Scenario.dedupExact
  = @paneReducer Sample.coreUtils Sample.subReducers
      (@paneReducer Sample.coreUtils Sample.subReducers Sample.paneA
         Scenario.dedupExact)
      Scenario.resize.
Proof.
  apply (@paneReducer_display_commute Sample.coreUtils Sample.subReducers
           Sample.paneA Scenario.resize Scenario.dedupExact
           fieldContainerWidth fieldDedupStrategy eq_refl eq_refl).
  - discriminate.
  - intros s'. reflexivity.
  - intros s'. reflexivity.
Defined.

(** A fresh pane stays uninitialized under a display action and is
    initialized by Initialize. *)
Lemma paneReducer_initialized_witness :
  initialized
    (@paneReducer Sample.coreUtils Sample.subReducers
       Sample.makeExplorePaneState Scenario.hideDebug) = false
  /\ initialized
       (@paneReducer Sample.coreUtils Sample.subReducers
          Sample.makeExplorePaneState
          (initializeExploreAction Sample.initializeB)) = true.
Proof.
  split;
    rewrite (@paneReducer_initialized Sample.coreUtils Sample.subReducers
               sample_subReducers_initialized);
    reflexivity.
Defined.

(** The sample pane keeps the agreement when it is resized. *)
Lemma paneReducer_missingMatchesInstance_witness :
  missingMatchesInstance Sample.paneA
  /\ missingMatchesInstance
       (@paneReducer Sample.coreUtils Sample.subReducers Sample.paneA
          Scenario.resize).
Proof.
  split; [reflexivity|].
  apply (proj2
           (@paneReducer_missingMatchesInstance Sample.coreUtils
              Sample.subReducers sample_subReducers_missing)).
  reflexivity.
Defined.

(** Two panes on data source "A" with different queries, ranges and
    origin panels have the same queries, range, origin panel and keys
    after Initialize. *)
Lemma paneReducer_initialize_forgets_witness :
  let t1 :=
    @paneReducer Sample.coreUtils Sample.subReducers Sample.paneA
      (initializeExploreAction Sample.initializeB) in
  let t2 :=
    @paneReducer Sample.coreUtils Sample.subReducers Scenario.paneSixHours
      (initializeExploreAction Sample.initializeB) in
  Sample.paneA <> Scenario.paneSixHours
  /\ queries t1 = queries t2
  /\ range t1 = range t2
  /\ originPanelId t1 = originPanelId t2
  /\ queryKeys t1 = queryKeys t2.
Proof.
  intros t1 t2. split; [discriminate|].
  destruct
    (@paneReducer_initialize_forgets Sample.coreUtils Sample.subReducers
       Sample.paneA Scenario.paneSixHours Sample.initializeB)
    as (_ & _ & Hr & Hq & _ & Ho & _ & _ & _ & _ & _ & Hk).
  split; [exact Hq|]. split; [exact Hr|]. split; [exact Ho|].
  apply Hk. reflexivity.
Defined.

(** Initializing the right pane on data source "B". *)
Lemma initializeExplore_dispatch_order_witness :
  dispatched
    (@runInitializeExplore Sample.coreUtils Sample.subReducers
       Sample.services ExploreId.right (Some "B") [] 
       (Sample.getTimeRangeFromUrl None "browser") 640 (EventBus 2) None
       Sample.store0)
  = [plain
       (initializeExploreAction
          (InitializeExplorePayload.mk ExploreId.right 640 (EventBus 2) []
             (Sample.getTimeRangeFromUrl None "browser") []
             (Some (mkDataSourceApi "B" 2)) None));
     updateTime ExploreId.right None;
     runQueries ExploreId.right;
     plain (richHistoryUpdatedAction [])].
Proof.
  apply (@initializeExplore_dispatch_order Sample.coreUtils
           Sample.subReducers Sample.services ExploreId.right (Some "B") []
           (Sample.getTimeRangeFromUrl None "browser") 640 (EventBus 2) None
           Sample.store0).
  reflexivity.
Defined.

(** Initializing the right pane on the unknown data source "C". *)
Lemma initializeExplore_rejection_witness :
  let r :=
    @runInitializeExplore Sample.coreUtils Sample.subReducers
      Sample.services ExploreId.right (Some "C") []
      (Sample.getTimeRangeFromUrl None "browser") 640 (EventBus 2) None
      Sample.store0 in
  outcome r = Rejected /\ dispatched r = [] /\ store r = Sample.store0.
Proof.
  intros r.
  destruct
    (@initializeExplore_rejection Sample.coreUtils Sample.subReducers
       Sample.services ExploreId.right (Some "C") []
       (Sample.getTimeRangeFromUrl None "browser") 640 (EventBus 2) None
       Sample.store0) as [Hiff Hrej].
  assert (Hout : outcome r = Rejected).
  { apply Hiff. split; [discriminate | reflexivity]. }
  split; [exact Hout | exact (Hrej Hout)].
Defined.

(** The URL of the six-hour pane, but for the origin panel. *)
Lemma refreshExplore_same_url_noop_witness :
  ExploreUrlState.originPanelId
    (Sample.getUrlStateFromPaneState Scenario.paneSixHours)
  <> ExploreUrlState.originPanelId
       (Sample.parseUrlState "[now-6h,now,A,{refId:A}]")
  /\ dispatched
       (@runRefreshExplore Sample.coreUtils Sample.subReducers
          Sample.services ExploreId.left "[now-6h,now,A,{refId:A}]"
          Scenario.storeSixHours)
     = [].
Proof.
  split; [discriminate|].
  apply (@refreshExplore_same_url_noop Sample.coreUtils Sample.subReducers
           Sample.services ExploreId.left "[now-6h,now,A,{refId:A}]"
           Scenario.storeSixHours); reflexivity.
Defined.


(** The three dispatches of the refresh that changes range and query. *)
Lemma thunks_dispatch_to_own_pane_witness :
  Forall (fun d => dispatchTarget d = Some ExploreId.left)
    (dispatched
       (@runRefreshExplore Sample.coreUtils Sample.subReducers
          Sample.services ExploreId.left "[now-6h,now,A,{expr:rate}]"
          Sample.store0)).
Proof.
  apply Forall_forall. intros d Hd. apply list_elem_of_In in Hd.
  exact (proj1
           (@thunks_dispatch_to_own_pane Sample.coreUtils Sample.subReducers
              Sample.services ExploreId.left Sample.store0)
           "[now-6h,now,A,{expr:rate}]" d Hd).
Defined.
